(** * DCF valuation engine ([dashboard.py], class [DCFValuation])

    A shallow embedding of the valuation class and the proofs of its
    arithmetic and error behaviour.

    Numbers.  The Python code is generic in its numbers (it only uses
    [+], [-], [*], [/] and [**] with an integer exponent).  Their values are
    carried by rationals [Q], and [+], [-], [*] and [/] are written with the
    rational operations: a statement names the formula the code evaluates,
    not its rounding.  Division by zero raises [ZeroDivisionError], as it
    does in Python for [int], [float] and [Fraction] alike.

    Powers.  What [**] does on a base that is not zero depends on the numbers
    the code is run on: on [int] and [Fraction] it is the exact power, on
    [float] it raises [OverflowError] when the power leaves the range and
    gives [0.0] when it underflows, which makes the division that follows
    raise.  The methods that use [**] therefore take an arithmetic, which
    says what a power of a non-zero base gives, and the theorems hold for
    every arithmetic unless they name one.

    State.  The only mutable attribute is [self.projections]; methods are
    computations in a state-and-exception monad over the object, so that a
    raised exception keeps the mutations made before it. *)

From Stdlib Require Import List ZArith QArith Qpower Qfield String DecimalString Lia Bool.
From Stdlib Require Import Lqa Ascii Qabs.
Import ListNotations.

Set Implicit Arguments.

(** ** Python primitives used by the class *)

Module Py.

(** The exceptions the methods can raise on numeric arguments. *)
Inductive exn : Type :=
| ValueError (msg : string)
| ZeroDivisionError
| OverflowError
| IndexError.

Definition result (A : Type) : Type := (exn + A)%type.

(** [a / b] *)
Definition truediv (a b : Q) : result Q :=
  if Qeq_bool b 0 then inl ZeroDivisionError else inr (a / b)%Q.

(** What [**] gives on a base that is not zero: a number, or nothing when
    it raises [OverflowError]. *)
Record arithmetic : Type := mkArithmetic {
  power : Q -> Z -> option Q
}.

(** The arithmetic of [int] and [Fraction]: powers are exact. *)
Definition exact : arithmetic :=
  mkArithmetic (fun a n => Some (Qpower a n)).

(** A coarse arithmetic with the range of a binary64 [float] and no
    rounding: a power whose magnitude reaches [2^1024] overflows, and one
    whose magnitude is at most [2^-1075] is zero. *)
Definition ranged : arithmetic :=
  mkArithmetic (fun a n =>
    let r := Qpower a n in
    if Qle_bool (Qpower 2 1024) (Qabs r) then None
    else if Qle_bool (Qabs r) (Qpower 2 (-1075)) then Some 0%Q
    else Some r).

(** [a ** n] with an [int] exponent.  A zero base raises
    [ZeroDivisionError] with a negative exponent and gives 1 or 0 otherwise,
    on every kind of number; a base that is not zero gives what the
    arithmetic says. *)
Definition pow (ar : arithmetic) (a : Q) (n : Z) : result Q :=
  if Qeq_bool a 0 then
    if (n <? 0)%Z then inl ZeroDivisionError else inr (Qpower a n)
  else
    match power ar a n with
    | None => inl OverflowError
    | Some r => inr r
    end.

(** [l[i]], negative indices counting from the end. *)
Definition getitem {A : Type} (l : list A) (i : Z) : result A :=
  let n := Z.of_nat (List.length l) in
  let j := if (i <? 0)%Z then (n + i)%Z else i in
  if (j <? 0)%Z then inl IndexError
  else match nth_error l (Z.to_nat j) with
       | Some x => inr x
       | None => inl IndexError
       end.

(** [range(a, b)] *)
Definition range (a b : Z) : list Z :=
  map (fun i => (a + Z.of_nat i)%Z) (seq 0 (Z.to_nat (b - a))).

(** [sum(l)]: left to right, starting from [0]. *)
Definition sum (l : list Q) : Q := fold_left Qplus l 0%Q.

(** [len(l)] *)
Definition len {A : Type} (l : list A) : Z := Z.of_nat (List.length l).

(** [not l] on a list. *)
Definition not_ {A : Type} (l : list A) : bool :=
  match l with [] => true | _ :: _ => false end.

(** [str(n)] for an [int], as an f-string renders it. *)
Definition str (n : Z) : string := NilZero.string_of_int (Z.to_int n).

End Py.

(** ** The object *)

(** One entry of [self.projections]: the dict with keys ['Year'], ['FCF']
    and ['Growth Rate']. *)
Record Projection : Type := mkProjection {
  Year : Z;
  FCF : Q;
  Growth_Rate : Q
}.

Record DCFValuation : Type := mkDCF {
  company_name : string;
  fcf_base : Q;
  fcf_growth_years : Z;
  projections : list Projection
}.

(** [__init__] *)
Definition init (company_name : string) (fcf_base : Q) (fcf_growth_years : Z)
  : DCFValuation :=
  mkDCF company_name fcf_base fcf_growth_years [].

(** ** Methods as stateful, fallible computations *)

Definition M (A : Type) : Type := DCFValuation -> Py.result A * DCFValuation.

Definition ret {A : Type} (a : A) : M A := fun self => (inr a, self).

Definition raise {A : Type} (e : Py.exn) : M A := fun self => (inl e, self).

Definition bind {A B : Type} (m : M A) (k : A -> M B) : M B :=
  fun self =>
    match m self with
    | (inl e, self') => (inl e, self')
    | (inr a, self') => k a self'
    end.

Definition lift {A : Type} (r : Py.result A) : M A := fun self => (r, self).

Definition get_self : M DCFValuation := fun self => (inr self, self).

(** The object with its [projections] attribute replaced. *)
Definition with_projections (self : DCFValuation) (ps : list Projection)
  : DCFValuation :=
  mkDCF (company_name self) (fcf_base self) (fcf_growth_years self) ps.

(** [self.projections = ps] *)
Definition set_projections (ps : list Projection) : M unit :=
  fun self => (inr tt, with_projections self ps).

(** [self.projections.append(p)] *)
Definition append_projection (p : Projection) : M unit :=
  fun self => (inr tt, with_projections self (projections self ++ [p])).

Declare Scope py_scope.
Delimit Scope py_scope with py.
Notation "x <- c1 ;; c2" := (bind c1 (fun x => c2))
  (at level 100, c1 at next level, right associativity) : py_scope.
Notation "c1 ;;; c2" := (bind c1 (fun _ => c2))
  (at level 100, right associativity) : py_scope.
Open Scope py_scope.

(** The body of [for year in range(1, self.fcf_growth_years + 1)], with the
    local [fcf] threaded through the iterations. *)
Fixpoint project_fcf_loop (growth_rates : list Q) (years : list Z) (fcf : Q)
  : M unit :=
  match years with
  | [] => ret tt
  | year :: rest =>
      g <- lift (Py.getitem growth_rates (year - 1)) ;;
      let fcf := (fcf * (1 + g))%Q in
      g' <- lift (Py.getitem growth_rates (year - 1)) ;;
      append_projection (mkProjection year fcf g') ;;;
      project_fcf_loop growth_rates rest fcf
  end.

Definition provide_msg (n : Z) : string :=
  ("Provide " ++ Py.str n ++ " growth rates")%string.

Definition project_fcf (growth_rates : list Q) : M (list Projection) :=
  self <- get_self ;;
  if negb (Py.len growth_rates =? fcf_growth_years self)%Z then
    raise (Py.ValueError (provide_msg (fcf_growth_years self)))
  else
    let fcf := fcf_base self in
    set_projections [] ;;;
    project_fcf_loop growth_rates (Py.range 1 (fcf_growth_years self + 1)) fcf ;;;
    self' <- get_self ;;
    ret (projections self').

Definition run_first_msg : string := "Run project_fcf() first".

Definition calculate_terminal_value (terminal_growth_rate wacc : Q) : M Q :=
  self <- get_self ;;
  if Py.not_ (projections self) then
    raise (Py.ValueError run_first_msg)
  else
    last_p <- lift (Py.getitem (projections self) (-1)) ;;
    let final_fcf := FCF last_p in
    let terminal_fcf := (final_fcf * (1 + terminal_growth_rate))%Q in
    terminal_value <- lift (Py.truediv terminal_fcf (wacc - terminal_growth_rate)%Q) ;;
    ret terminal_value.

(** The body of [for projection in self.projections], accumulating
    [pv_fcfs]. *)
Fixpoint calculate_pv_loop (ar : Py.arithmetic) (discount_rate : Q)
  (ps : list Projection) (pv_fcfs : list Q) : Py.result (list Q) :=
  match ps with
  | [] => inr pv_fcfs
  | projection :: rest =>
      let year := Year projection in
      let fcf := FCF projection in
      match Py.pow ar (1 + discount_rate)%Q year with
      | inl e => inl e
      | inr d =>
          match Py.truediv fcf d with
          | inl e => inl e
          | inr pv => calculate_pv_loop ar discount_rate rest (pv_fcfs ++ [pv])
          end
      end
  end.

Definition calculate_pv (ar : Py.arithmetic) (discount_rate : Q) : M (list Q) :=
  self <- get_self ;;
  lift (calculate_pv_loop ar discount_rate (projections self) []).

(** The dict returned by [calculate_enterprise_value]. *)
Record EVResult : Type := mkEV {
  PV_of_Projected_FCFs : Q;
  Terminal_Value : Q;
  PV_of_Terminal_Value : Q;
  Enterprise_Value : Q
}.

Definition calculate_enterprise_value (ar : Py.arithmetic)
  (growth_rates : list Q) (terminal_growth_rate wacc : Q) : M EVResult :=
  project_fcf growth_rates ;;;
  pv_fcfs <- calculate_pv ar wacc ;;
  let pv_fcf_sum := Py.sum pv_fcfs in
  terminal_value <- calculate_terminal_value terminal_growth_rate wacc ;;
  self <- get_self ;;
  d <- lift (Py.pow ar (1 + wacc)%Q (fcf_growth_years self)) ;;
  pv_terminal_value <- lift (Py.truediv terminal_value d) ;;
  let enterprise_value := (pv_fcf_sum + pv_terminal_value)%Q in
  ret (mkEV pv_fcf_sum terminal_value pv_terminal_value enterprise_value).

(** The dict returned by [calculate_equity_value]. *)
Record EquityResult : Type := mkEquity {
  Equity_Value : Q;
  Price_Per_Share : Q
}.

Definition calculate_equity_value (enterprise_value net_debt shares_outstanding : Q)
  : M EquityResult :=
  let equity_value := (enterprise_value - net_debt)%Q in
  price_per_share <- lift (Py.truediv equity_value shares_outstanding) ;;
  ret (mkEquity equity_value price_per_share).

(** ** The example of the script *)

Definition msft : DCFValuation := init "Microsoft" 45000 5.

Definition fcf_growth_rates : list Q := [8#100; 8#100; 7#100; 7#100; 6#100]%Q.

(** ** Definitions used in the statements *)

(** The entries the loop appends when it starts year [k+1] with the running
    value [fcf] and the rates still to apply. *)
Fixpoint chain (fcf : Q) (k : nat) (rates : list Q) : list Projection :=
  match rates with
  | [] => []
  | g :: rest =>
      let fcf' := (fcf * (1 + g))%Q in
      mkProjection (Z.of_nat (S k)) fcf' g :: chain fcf' (S k) rest
  end.

(** [fcf_0 = baseFCF], [fcf_y = fcf_{y-1} * (1 + growthRates[y-1])]. *)
Fixpoint spec_fcf (base : Q) (rates : list Q) (y : nat) : Q :=
  match y with
  | O => base
  | S y' => (spec_fcf base rates y' * (1 + nth y' rates 0))%Q
  end.

(** The sum of [f y] over the years [y = 1..n]. *)
Fixpoint sum_years (f : nat -> Q) (n : nat) : Q :=
  match n with
  | O => 0%Q
  | S m => (sum_years f m + f (S m))%Q
  end.

(** [fcf_y / (1 + discountRate)^y], where [factor y] is the number that
    [(1 + discountRate) ** y] gave. *)
Definition spec_pv (base : Q) (rates : list Q) (factor : Z -> Q) (y : nat) : Q :=
  (spec_fcf base rates y / factor (Z.of_nat y))%Q.

(** An operation fails with one of the two input or state errors of the
    specification, which the code both raises as [ValueError]. *)
Definition raises_ValueError {A : Type} (r : Py.result A) : Prop :=
  exists msg, r = inl (Py.ValueError msg).

(** The entry the loop stores for year [y]. *)
Definition spec_entry (base : Q) (rates : list Q) (y : nat) : Projection :=
  mkProjection (Z.of_nat y) (spec_fcf base rates y) (nth (pred y) rates 0%Q).

(** The present value the loop of [calculate_pv] computes for an entry,
    where [factor y] is the number that [(1 + discount_rate) ** y] gave. *)
Definition pv_of (factor : Z -> Q) (p : Projection) : Q :=
  (FCF p / factor (Year p))%Q.

(** Every discount factor [(1 + discount_rate) ** y] of the years from 1 to
    [n] is computed, to [factor y], and is not zero. *)
Definition discount_factors (ar : Py.arithmetic) (discount_rate : Q) (n : Z)
  (factor : Z -> Q) : Prop :=
  forall y, (1 <= y <= n)%Z ->
    Py.pow ar (1 + discount_rate)%Q y = inr (factor y) /\ ~ (factor y == 0)%Q.

(** ** [run_valuation] and its report *)

(** The parts of an f-string: literal text and formatted values.  The text
    a number renders to is not modelled, only the number and the format
    ([:,.1f], [:.1f], [:.2f]) it is rendered with; likewise [str.upper]. *)
Inductive part : Type :=
| Text (s : string)
| Upper (s : string)
| Fmt_comma_1f (x : Q)
| Fmt_1f (x : Q)
| Fmt_2f (x : Q).

Definition fstring : Type := list part.

(** What one call of [print] writes: a line, or the data frame of the
    projections rendered by [to_string(index=False)], one row per entry with
    the columns ['Year'], ['FCF'] and ['Growth Rate']. *)
Inductive printed : Type :=
| Line (s : fstring)
| Frame (rows : list (Z * fstring * fstring)).

Definition stdout : Type := list printed.

(** Computations that also print. *)
Definition IO (A : Type) : Type :=
  DCFValuation * stdout -> Py.result A * (DCFValuation * stdout).

Definition io_ret {A : Type} (a : A) : IO A := fun w => (inr a, w).

Definition io_bind {A B : Type} (m : IO A) (k : A -> IO B) : IO B :=
  fun w =>
    match m w with
    | (inl e, w') => (inl e, w')
    | (inr a, w') => k a w'
    end.

(** A method call from a printing computation. *)
Definition call {A : Type} (m : M A) : IO A :=
  fun w =>
    match m (fst w) with
    | (r, self') => (r, (self', snd w))
    end.

(** [print(x)] *)
Definition print_out (x : printed) : IO unit :=
  fun w => (inr tt, (fst w, snd w ++ [x])).

Declare Scope io_scope.
Delimit Scope io_scope with io.
Notation "x <- c1 ;; c2" := (io_bind c1 (fun x => c2))
  (at level 100, c1 at next level, right associativity) : io_scope.
Notation "c1 ;;; c2" := (io_bind c1 (fun _ => c2))
  (at level 100, right associativity) : io_scope.

(** The newline character. *)
Definition nl : string := String "010"%char EmptyString.

(** [s * n] on a string. *)
Fixpoint str_mul (s : string) (n : nat) : string :=
  match n with
  | O => EmptyString
  | S m => (s ++ str_mul s m)%string
  end.

(** The dict returned by [run_valuation]. *)
Record RunResult : Type := mkRun {
  enterprise_value : Q;
  equity_value : Q;
  price_per_share : Q
}.

(** The rows of the data frame built from [self.projections], after the two
    [apply] calls that format the ['Growth Rate'] and ['FCF'] columns. *)
Definition df_projections (ps : list Projection) : list (Z * fstring * fstring) :=
  map (fun p => (Year p,
                 [Text "$"; Fmt_comma_1f (FCF p); Text "M"],
                 [Fmt_1f (Growth_Rate p * 100)%Q; Text "%"])) ps.

Definition run_valuation (ar : Py.arithmetic) (fcf_growth : list Q)
  (terminal_growth wacc net_debt shares : Q) : IO RunResult :=
  (self <- call get_self ;;
   print_out (Line [Text nl; Text (str_mul "=" 70)]) ;;;
   print_out (Line [Text "DCF VALUATION MODEL - "; Upper (company_name self)]) ;;;
   print_out (Line [Text (str_mul "=" 70); Text nl]) ;;;
   ev_results <- call (calculate_enterprise_value ar fcf_growth terminal_growth wacc) ;;
   equity_results <- call (calculate_equity_value (Enterprise_Value ev_results)
                             net_debt shares) ;;
   self <- call get_self ;;
   print_out (Line [Text "INPUT ASSUMPTIONS:"]) ;;;
   print_out (Line [Text "  Base Year FCF ..................... $";
                    Fmt_comma_1f (fcf_base self); Text "M"]) ;;;
   print_out (Line [Text "  Projection Period ................ ";
                    Text (Py.str (fcf_growth_years self)); Text " years"]) ;;;
   print_out (Line [Text "  Terminal Growth Rate ............. ";
                    Fmt_1f (terminal_growth * 100)%Q; Text "%"]) ;;;
   print_out (Line [Text "  WACC (Discount Rate) ............. ";
                    Fmt_1f (wacc * 100)%Q; Text "%"]) ;;;
   print_out (Line [Text "  Net Debt .......................... $";
                    Fmt_comma_1f net_debt; Text "M"]) ;;;
   print_out (Line [Text "  Shares Outstanding ............... ";
                    Fmt_1f shares; Text "M"]) ;;;
   print_out (Line [Text nl; Text "FCF PROJECTIONS:"]) ;;;
   print_out (Frame (df_projections (projections self))) ;;;
   print_out (Line [Text nl; Text "VALUATION RESULTS:"]) ;;;
   print_out (Line [Text "  PV of Projected FCFs ............. $";
                    Fmt_comma_1f (PV_of_Projected_FCFs ev_results); Text "M"]) ;;;
   print_out (Line [Text "  Terminal Value ................... $";
                    Fmt_comma_1f (Terminal_Value ev_results); Text "M"]) ;;;
   print_out (Line [Text "  PV of Terminal Value ............. $";
                    Fmt_comma_1f (PV_of_Terminal_Value ev_results); Text "M"]) ;;;
   print_out (Line [Text "  Enterprise Value ................. $";
                    Fmt_comma_1f (Enterprise_Value ev_results); Text "M"]) ;;;
   print_out (Line [Text nl; Text "  Less: Net Debt .................... $";
                    Fmt_comma_1f net_debt; Text "M"]) ;;;
   print_out (Line [Text "  Equity Value ...................... $";
                    Fmt_comma_1f (Equity_Value equity_results); Text "M"]) ;;;
   print_out (Line [Text "  ÷ Shares Outstanding ............. ";
                    Fmt_1f shares; Text "M"]) ;;;
   print_out (Line [Text nl; Text "  "; Text (str_mul "─" 50)]) ;;;
   print_out (Line [Text "  INTRINSIC VALUE PER SHARE ........ $";
                    Fmt_2f (Price_Per_Share equity_results)]) ;;;
   print_out (Line [Text "  "; Text (str_mul "─" 50); Text nl]) ;;;
   io_ret (mkRun (Enterprise_Value ev_results)
                 (Equity_Value equity_results)
                 (Price_Per_Share equity_results)))%io.

(** The three lines printed before anything is computed. *)
Definition banner (name : string) : stdout :=
  [Line [Text nl; Text (str_mul "=" 70)];
   Line [Text "DCF VALUATION MODEL - "; Upper name];
   Line [Text (str_mul "=" 70); Text nl]].

(** ** The script's run *)

Example msft_years :
  map Year (projections (snd (project_fcf fcf_growth_rates msft))) = [1; 2; 3; 4; 5]%Z.
Proof. reflexivity. Qed.

Example msft_year1 :
  option_map FCF (nth_error (projections (snd (project_fcf fcf_growth_rates msft))) 0)
  = Some (45000 * (1 + (8#100)))%Q.
Proof. reflexivity. Qed.

Example wrong_length_msg :
  fst (project_fcf [] msft) = inl (Py.ValueError "Provide 5 growth rates").
Proof. reflexivity. Qed.

(** ** Facts about the Python primitives *)

Lemma getitem_nat {A : Type} (l : list A) (i : nat) (x : A) :
  nth_error l i = Some x -> Py.getitem l (Z.of_nat i) = inr x.
Proof.
  intros H. unfold Py.getitem. cbv zeta.
  destruct (Z.ltb_spec (Z.of_nat i) 0) as [Hneg | _]; [lia |].
  destruct (Z.ltb_spec (Z.of_nat i) 0) as [Hneg | _]; [lia |].
  rewrite Nat2Z.id, H. reflexivity.
Qed.

Lemma getitem_last {A : Type} (l : list A) (x : A) :
  Py.getitem (l ++ [x]) (-1) = inr x.
Proof.
  unfold Py.getitem. cbv zeta. rewrite length_app. cbn [List.length Z.ltb Z.compare].
  replace (Z.of_nat (List.length l + 1) + -1)%Z with (Z.of_nat (List.length l)) by lia.
  destruct (Z.ltb_spec (Z.of_nat (List.length l)) 0) as [Hneg | _]; [lia |].
  rewrite Nat2Z.id, nth_error_app2 by lia.
  rewrite Nat.sub_diag. reflexivity.
Qed.

Lemma range_from_1 (n : nat) :
  Py.range 1 (Z.of_nat n + 1) = map (fun i => Z.of_nat (S i)) (seq 0 n).
Proof.
  unfold Py.range. replace (Z.of_nat n + 1 - 1)%Z with (Z.of_nat n) by lia.
  rewrite Nat2Z.id. apply map_ext. intros i. lia.
Qed.

Lemma truediv_nonzero (a b : Q) :
  ~ (b == 0)%Q -> Py.truediv a b = inr (a / b)%Q.
Proof.
  intros Hb. unfold Py.truediv.
  destruct (Qeq_bool b 0) eqn:E; [| reflexivity].
  apply Qeq_bool_iff in E. contradiction.
Qed.

Lemma truediv_zero (a b : Q) :
  (b == 0)%Q -> Py.truediv a b = inl Py.ZeroDivisionError.
Proof.
  intros Hb. unfold Py.truediv.
  apply Qeq_bool_iff in Hb. rewrite Hb. reflexivity.
Qed.

Lemma pow_exact (a : Q) (n : Z) :
  ~ (a == 0)%Q -> Py.pow Py.exact a n = inr (Qpower a n).
Proof.
  intros Ha. unfold Py.pow.
  destruct (Qeq_bool a 0) eqn:E; [| reflexivity].
  apply Qeq_bool_iff in E. contradiction.
Qed.

Lemma pow_zero_base (ar : Py.arithmetic) (a : Q) (n : Z) :
  (a == 0)%Q ->
  Py.pow ar a n
  = if (n <? 0)%Z then inl Py.ZeroDivisionError else inr (Qpower a n).
Proof.
  intros Ha. unfold Py.pow. apply Qeq_bool_iff in Ha. rewrite Ha. reflexivity.
Qed.

(** [**] raises nothing but [ZeroDivisionError] and [OverflowError]. *)
Lemma pow_errors (ar : Py.arithmetic) (a : Q) (n : Z) (e : Py.exn) :
  Py.pow ar a n = inl e -> e = Py.ZeroDivisionError \/ e = Py.OverflowError.
Proof.
  unfold Py.pow. destruct (Qeq_bool a 0).
  - destruct (n <? 0)%Z; [intros [= <-]; left; reflexivity | discriminate].
  - destruct (Py.power ar a n); [discriminate | intros [= <-]; right; reflexivity].
Qed.

(** In the exact arithmetic every discount factor is computed, and none is
    zero unless the discount rate is [-1]. *)
Lemma exact_discount_factors (discount_rate : Q) (n : Z) :
  ~ (1 + discount_rate == 0)%Q ->
  discount_factors Py.exact discount_rate n (Qpower (1 + discount_rate)).
Proof.
  intros Hd y _. split; [apply pow_exact; exact Hd | apply Qpower_not_0; exact Hd].
Qed.

(** ** The projection loop *)

Lemma project_fcf_loop_chain (growth_rates : list Q) :
  forall (todo : list Q) (k : nat) (fcf : Q) (self : DCFValuation),
    skipn k growth_rates = todo ->
    project_fcf_loop growth_rates
      (map (fun i => Z.of_nat (S i)) (seq k (List.length todo))) fcf self
    = (inr tt, with_projections self (projections self ++ chain fcf k todo)).
Proof.
  induction todo as [| g rest IH]; intros k fcf self Hskip.
  - cbn. unfold ret, with_projections. rewrite app_nil_r.
    destruct self; reflexivity.
  - assert (Hnth : nth_error growth_rates k = Some g).
    { rewrite <- (Nat.add_0_r k), <- nth_error_skipn, Hskip. reflexivity. }
    assert (Hrest : skipn (S k) growth_rates = rest).
    { change (S k) with (1 + k)%nat. rewrite <- skipn_skipn, Hskip.
      reflexivity. }
    cbn [List.length seq map project_fcf_loop].
    replace (Z.of_nat (S k) - 1)%Z with (Z.of_nat k) by lia.
    unfold bind at 1. unfold lift at 1. rewrite (getitem_nat _ _ Hnth).
    unfold bind at 1. unfold lift at 1.
    unfold bind at 1. unfold append_projection at 1.
    rewrite (IH (S k) _ _ Hrest).
    unfold with_projections. cbn [projections company_name fcf_base fcf_growth_years].
    rewrite <- app_assoc. reflexivity.
Qed.

(** What a call of [project_fcf] with the right number of rates does. *)
Lemma project_fcf_ok (growth_rates : list Q) (self : DCFValuation) :
  Py.len growth_rates = fcf_growth_years self ->
  project_fcf growth_rates self
  = (inr (chain (fcf_base self) 0 growth_rates),
     with_projections self (chain (fcf_base self) 0 growth_rates)).
Proof.
  intros Hlen. unfold project_fcf.
  unfold bind at 1. unfold get_self at 1.
  rewrite Hlen, Z.eqb_refl. cbn [negb].
  unfold bind at 1. unfold set_projections at 1.
  replace (Py.range 1 (fcf_growth_years self + 1))
    with (map (fun i => Z.of_nat (S i)) (seq 0 (List.length growth_rates)))
    by (rewrite <- Hlen; symmetry; apply range_from_1).
  unfold bind at 1.
  rewrite (project_fcf_loop_chain growth_rates (todo := growth_rates) 0 _ _ eq_refl).
  reflexivity.
Qed.

(** What a call of [project_fcf] with a wrong number of rates does. *)
Lemma project_fcf_wrong_length (growth_rates : list Q) (self : DCFValuation) :
  Py.len growth_rates <> fcf_growth_years self ->
  project_fcf growth_rates self
  = (inl (Py.ValueError (provide_msg (fcf_growth_years self))), self).
Proof.
  intros Hlen. unfold project_fcf.
  unfold bind at 1. unfold get_self at 1.
  apply Z.eqb_neq in Hlen. rewrite Hlen. reflexivity.
Qed.

Lemma chain_length (rates : list Q) :
  forall fcf k, List.length (chain fcf k rates) = List.length rates.
Proof.
  induction rates as [| g rest IH]; intros fcf k; cbn; [| rewrite IH]; reflexivity.
Qed.

Lemma chain_years (rates : list Q) :
  forall fcf k,
    map Year (chain fcf k rates)
    = map (fun i => Z.of_nat (S i)) (seq k (List.length rates)).
Proof.
  induction rates as [| g rest IH]; intros fcf k; cbn; [| rewrite IH]; reflexivity.
Qed.

Lemma chain_head (rates : list Q) (fcf : Q) (k : nat) (g : Q) :
  nth_error rates 0 = Some g ->
  nth_error (chain fcf k rates) 0
  = Some (mkProjection (Z.of_nat (S k)) (fcf * (1 + g))%Q g).
Proof.
  destruct rates as [| g0 rest]; cbn; [discriminate |].
  intros [= ->]. reflexivity.
Qed.

Lemma chain_step (rates : list Q) :
  forall fcf k i g,
    nth_error rates (S i) = Some g ->
    exists prev,
      nth_error (chain fcf k rates) i = Some prev /\
      nth_error (chain fcf k rates) (S i)
      = Some (mkProjection (Z.of_nat (S (S i + k))) (FCF prev * (1 + g))%Q g).
Proof.
  induction rates as [| g0 rest IH]; intros fcf k i g Hg; [discriminate |].
  cbn in Hg. destruct i as [| i].
  - cbn [chain]. eexists. split; [reflexivity |].
    change (nth_error (?p :: ?l) 1) with (nth_error l 0).
    rewrite (chain_head rest _ _ Hg). reflexivity.
  - cbn [chain]. destruct (IH (fcf * (1 + g0))%Q (S k) i g Hg) as [prev [Hp Hn]].
    exists prev. split; [exact Hp |].
    change (nth_error (?p :: ?l) (S ?n)) with (nth_error l n).
    rewrite Hn. do 3 f_equal. lia.
Qed.

Lemma chain_spec (base : Q) (rates : list Q) :
  forall (todo : list Q) (k : nat),
    skipn k rates = todo ->
    chain (spec_fcf base rates k) k todo
    = map (spec_entry base rates) (seq (S k) (List.length todo)).
Proof.
  induction todo as [| g rest IH]; intros k Hskip; [reflexivity |].
  assert (Hnth : nth k rates 0%Q = g).
  { apply nth_error_nth.
    rewrite <- (Nat.add_0_r k), <- nth_error_skipn, Hskip. reflexivity. }
  assert (Hrest : skipn (S k) rates = rest).
  { change (S k) with (1 + k)%nat. rewrite <- skipn_skipn, Hskip. reflexivity. }
  cbn [chain List.length seq map]. f_equal.
  - unfold spec_entry. cbn [pred spec_fcf]. rewrite Hnth. reflexivity.
  - rewrite <- (IH (S k) Hrest). cbn [spec_fcf]. rewrite Hnth. reflexivity.
Qed.

Lemma chain_is_spec (base : Q) (rates : list Q) :
  chain base 0 rates = map (spec_entry base rates) (seq 1 (List.length rates)).
Proof. exact (chain_spec base rates (todo := rates) 0 eq_refl). Qed.

Lemma sum_seq (f : nat -> Q) (n : nat) :
  Py.sum (map f (seq 1 n)) = sum_years f n.
Proof.
  unfold Py.sum. induction n as [| n IH]; [reflexivity |].
  rewrite seq_S, map_app, fold_left_app, IH. reflexivity.
Qed.

(** ** Present values *)

Lemma calculate_pv_loop_ok (ar : Py.arithmetic) (discount_rate : Q)
  (factor : Z -> Q) (ps : list Projection) :
  (forall p, In p ps ->
     Py.pow ar (1 + discount_rate)%Q (Year p) = inr (factor (Year p)) /\
     ~ (factor (Year p) == 0)%Q) ->
  forall pv_fcfs,
    calculate_pv_loop ar discount_rate ps pv_fcfs
    = inr (pv_fcfs ++ map (pv_of factor) ps).
Proof.
  induction ps as [| p rest IH]; intros Hf acc.
  - cbn. rewrite app_nil_r. reflexivity.
  - cbn [calculate_pv_loop map].
    destruct (Hf p (or_introl eq_refl)) as [Hpow Hnz].
    rewrite Hpow, (truediv_nonzero _ Hnz).
    rewrite IH by (intros q Hq; apply Hf; right; exact Hq).
    rewrite <- app_assoc. reflexivity.
Qed.

(** The loop of [calculate_pv] raises nothing but [ZeroDivisionError] and
    [OverflowError]. *)
Lemma calculate_pv_loop_errors (ar : Py.arithmetic) (discount_rate : Q)
  (ps : list Projection) :
  forall pv_fcfs e,
    calculate_pv_loop ar discount_rate ps pv_fcfs = inl e ->
    e = Py.ZeroDivisionError \/ e = Py.OverflowError.
Proof.
  induction ps as [| p rest IH]; intros acc e; cbn [calculate_pv_loop];
    [discriminate |].
  destruct (Py.pow ar (1 + discount_rate) (Year p)) as [e' | d] eqn:Hpow.
  - intros [= <-]. exact (pow_errors _ _ _ Hpow).
  - unfold Py.truediv. destruct (Qeq_bool d 0).
    + intros [= <-]. left. reflexivity.
    + apply IH.
Qed.

Lemma calculate_pv_state (ar : Py.arithmetic) (discount_rate : Q)
  (self : DCFValuation) :
  snd (calculate_pv ar discount_rate self) = self.
Proof. reflexivity. Qed.

(** ** Terminal value *)

Lemma calculate_terminal_value_last (g wacc : Q) (self : DCFValuation)
  (l : list Projection) (p : Projection) :
  projections self = l ++ [p] ->
  calculate_terminal_value g wacc self
  = (match Py.truediv (FCF p * (1 + g))%Q (wacc - g)%Q with
     | inl e => inl e
     | inr v => inr v
     end, self).
Proof.
  intros Hps. unfold calculate_terminal_value.
  unfold bind at 1. unfold get_self at 1. rewrite Hps.
  replace (Py.not_ (l ++ [p])) with false by (destruct l; reflexivity).
  unfold bind at 1. unfold lift at 1. rewrite getitem_last.
  unfold bind, lift, ret.
  destruct (Py.truediv (FCF p * (1 + g))%Q (wacc - g)%Q); reflexivity.
Qed.

Lemma calculate_terminal_value_state (g wacc : Q) (self : DCFValuation) :
  snd (calculate_terminal_value g wacc self) = self.
Proof.
  destruct (projections self) as [| p0 rest] eqn:Hps.
  - unfold calculate_terminal_value, bind, get_self. rewrite Hps. reflexivity.
  - destruct (@exists_last _ (p0 :: rest)) as [l [p Hl]]; [discriminate |].
    rewrite (calculate_terminal_value_last g wacc self l p) by congruence.
    reflexivity.
Qed.

Lemma Qminus_nonzero (a b : Q) : (b < a)%Q -> ~ (a - b == 0)%Q.
Proof.
  intros Hlt Heq.
  assert (Hab : (a == b)%Q).
  { setoid_replace a with (a - b + b)%Q by ring. rewrite Heq. ring. }
  rewrite Hab in Hlt. exact (Qlt_irrefl _ Hlt).
Qed.

(** ** [project_fcf] *)

(** C2: with as many growth rates as projection years, [project_fcf]
    succeeds; the list it returns is the list it stores; it has one entry per
    projection year, the years are 1..N in order, the first entry's FCF is
    the base FCF times one plus the first rate, and each later entry's FCF is
    the previous entry's FCF times one plus that year's rate. *)
Theorem project_fcf_chains (self : DCFValuation) (growth_rates : list Q) :
  Py.len growth_rates = fcf_growth_years self ->
  exists entries,
    project_fcf growth_rates self = (inr entries, with_projections self entries) /\
    Py.len entries = fcf_growth_years self /\
    map Year entries = Py.range 1 (fcf_growth_years self + 1) /\
    (forall g, nth_error growth_rates 0 = Some g ->
       exists p, nth_error entries 0 = Some p /\
                 Growth_Rate p = g /\
                 FCF p = (fcf_base self * (1 + g))%Q) /\
    (forall i g, nth_error growth_rates (S i) = Some g ->
       exists prev p, nth_error entries i = Some prev /\
                      nth_error entries (S i) = Some p /\
                      Growth_Rate p = g /\
                      FCF p = (FCF prev * (1 + g))%Q).
Proof.
  intros Hlen. exists (chain (fcf_base self) 0 growth_rates).
  split; [apply project_fcf_ok; exact Hlen |].
  split; [unfold Py.len; rewrite chain_length; exact Hlen |].
  split.
  { rewrite chain_years, <- Hlen. symmetry. apply range_from_1. }
  split.
  - intros g Hg. eexists. split; [apply chain_head; exact Hg |].
    split; reflexivity.
  - intros i g Hg.
    destruct (chain_step growth_rates (fcf_base self) 0 i Hg) as [prev [Hp Hn]].
    exists prev. eexists. split; [exact Hp |]. split; [exact Hn |].
    split; reflexivity.
Qed.

Lemma project_fcf_chains_witness :
  exists entries,
    project_fcf fcf_growth_rates msft = (inr entries, with_projections msft entries) /\
    Py.len entries = fcf_growth_years msft /\
    map Year entries = Py.range 1 (fcf_growth_years msft + 1) /\
    (forall g, nth_error fcf_growth_rates 0 = Some g ->
       exists p, nth_error entries 0 = Some p /\
                 Growth_Rate p = g /\
                 FCF p = (fcf_base msft * (1 + g))%Q) /\
    (forall i g, nth_error fcf_growth_rates (S i) = Some g ->
       exists prev p, nth_error entries i = Some prev /\
                      nth_error entries (S i) = Some p /\
                      Growth_Rate p = g /\
                      FCF p = (FCF prev * (1 + g))%Q).
Proof. apply (project_fcf_chains msft fcf_growth_rates). reflexivity. Defined.

(** C7: with a number of growth rates different from the number of
    projection years, [project_fcf] fails with the [ValueError] that asks for
    that many rates. *)
Theorem project_fcf_rejects_wrong_length (self : DCFValuation) (growth_rates : list Q) :
  Py.len growth_rates <> fcf_growth_years self ->
  fst (project_fcf growth_rates self)
  = inl (Py.ValueError (provide_msg (fcf_growth_years self))).
Proof.
  intros Hlen. rewrite (project_fcf_wrong_length _ _ Hlen). reflexivity.
Qed.

Lemma project_fcf_rejects_wrong_length_witness :
  fst (project_fcf [1; 2]%Q msft) = inl (Py.ValueError (provide_msg 5)).
Proof.
  apply (project_fcf_rejects_wrong_length msft [1; 2]%Q).
  vm_compute. discriminate.
Defined.

(** C10: when [project_fcf] fails on a wrong number of growth rates, the
    object, and so its stored projections, is exactly as before the call,
    whatever projections it held. *)
Theorem project_fcf_failure_keeps_state (self : DCFValuation) (growth_rates : list Q) :
  Py.len growth_rates <> fcf_growth_years self ->
  snd (project_fcf growth_rates self) = self /\
  projections (snd (project_fcf growth_rates self)) = projections self.
Proof.
  intros Hlen. rewrite (project_fcf_wrong_length _ _ Hlen). split; reflexivity.
Qed.

Lemma project_fcf_failure_keeps_state_witness :
  let self := with_projections msft [mkProjection 1 7 0; mkProjection 2 9 0] in
  snd (project_fcf [1; 2]%Q self) = self /\
  projections (snd (project_fcf [1; 2]%Q self)) = projections self.
Proof.
  apply (project_fcf_failure_keeps_state
           (with_projections msft [mkProjection 1 7 0; mkProjection 2 9 0])
           [1; 2]%Q).
  vm_compute. discriminate.
Defined.

(** After a successful projection the last stored entry is the one of the
    highest year. *)
Lemma project_fcf_last_is_highest_year (self : DCFValuation) (growth_rates : list Q)
  (l : list Projection) (p : Projection) :
  Py.len growth_rates = fcf_growth_years self ->
  projections (snd (project_fcf growth_rates self)) = l ++ [p] ->
  Year p = fcf_growth_years self /\
  forall q, In q l -> (Year q < Year p)%Z.
Proof.
  intros Hlen. rewrite (project_fcf_ok _ _ Hlen).
  cbn [snd with_projections projections]. intros Hps.
  assert (Hy : map Year l ++ [Year p]
               = map (fun i => Z.of_nat (S i)) (seq 0 (List.length growth_rates))).
  { rewrite <- chain_years with (fcf := fcf_base self), Hps, map_app.
    reflexivity. }
  destruct (List.length growth_rates) as [| n] eqn:Hn.
  { destruct (map Year l); discriminate Hy. }
  rewrite seq_S, map_app in Hy. cbn [map] in Hy.
  apply app_inj_tail in Hy. destruct Hy as [Hl Hp].
  split.
  - rewrite Hp, <- Hlen. unfold Py.len. rewrite Hn. cbn [Nat.add]. reflexivity.
  - intros q Hq. rewrite Hp.
    assert (Hin : In (Year q) (map Year l)) by (apply in_map; exact Hq).
    rewrite Hl in Hin. apply in_map_iff in Hin.
    destruct Hin as [i [Hi Hseq]]. apply in_seq in Hseq.
    rewrite <- Hi. cbn [Nat.add]. lia.
Qed.

(** ** [calculate_terminal_value] and [calculate_pv] *)

(** C6: on an object with stored projections and a discount rate above the
    terminal growth rate, [calculate_terminal_value] returns the FCF of the
    last stored entry times one plus the terminal growth rate, divided by the
    discount rate minus the terminal growth rate; the object is unchanged,
    and the value is the same for any other entries before the last and any
    other year or rate in the last: only the last entry's FCF is read. *)
Theorem calculate_terminal_value_formula (self : DCFValuation) (g wacc : Q) :
  projections self <> [] ->
  (g < wacc)%Q ->
  exists l p,
    projections self = l ++ [p] /\
    calculate_terminal_value g wacc self
    = (inr (FCF p * (1 + g) / (wacc - g))%Q, self) /\
    forall l' year rate,
      fst (calculate_terminal_value g wacc
             (with_projections self (l' ++ [mkProjection year (FCF p) rate])))
      = fst (calculate_terminal_value g wacc self).
Proof.
  intros Hne Hlt.
  destruct (exists_last Hne) as [l [p Hl]].
  exists l, p. split; [exact Hl |].
  assert (Hdiv : forall a, Py.truediv a (wacc - g)%Q = inr (a / (wacc - g))%Q).
  { intros a. apply truediv_nonzero, Qminus_nonzero, Hlt. }
  rewrite (calculate_terminal_value_last g wacc self l p Hl), Hdiv.
  split; [reflexivity |].
  intros l' year rate.
  rewrite (calculate_terminal_value_last g wacc
             (with_projections self (l' ++ [mkProjection year (FCF p) rate]))
             l' (mkProjection year (FCF p) rate) eq_refl).
  cbn [FCF]. rewrite Hdiv. reflexivity.
Qed.

Lemma calculate_terminal_value_formula_witness :
  let self := with_projections msft [mkProjection 1 100 0; mkProjection 2 110 (1#10)] in
  exists l p,
    projections self = l ++ [p] /\
    calculate_terminal_value (25#1000) (7#100) self
    = (inr (FCF p * (1 + (25#1000)) / ((7#100) - (25#1000)))%Q, self) /\
    forall l' year rate,
      fst (calculate_terminal_value (25#1000) (7#100)
             (with_projections self (l' ++ [mkProjection year (FCF p) rate])))
      = fst (calculate_terminal_value (25#1000) (7#100) self).
Proof.
  apply (calculate_terminal_value_formula
           (with_projections msft [mkProjection 1 100 0; mkProjection 2 110 (1#10)])).
  - discriminate.
  - reflexivity.
Defined.

(** C1, as the specification states it: with stored projections and a
    discount rate not above the terminal growth rate the call would fail with
    a [ValueError].  The code has no such check: at growth 1 and discount 0
    it returns the number [-2]. *)
Lemma calculate_terminal_value_no_rate_check :
  let self := with_projections msft [mkProjection 1 1 0] in
  projections self <> [] /\
  (0 <= 1)%Q /\
  fst (calculate_terminal_value 1 0 self) = inr (1 * (1 + 1) / (0 - 1))%Q /\
  ~ raises_ValueError (fst (calculate_terminal_value 1 0 self)).
Proof.
  cbv zeta. split; [discriminate |]. split; [discriminate |].
  split; [reflexivity |].
  intros [msg Hmsg]. discriminate Hmsg.
Qed.

(** C1, amended: with stored projections and a discount rate not above the
    terminal growth rate, the object is unchanged and the call never fails
    with a [ValueError]: when the two rates are equal it fails with
    [ZeroDivisionError], and when the discount rate is below the growth rate
    it returns the quotient of the formula, whose denominator is negative. *)
Theorem calculate_terminal_value_low_discount (self : DCFValuation) (g wacc : Q)
  (l : list Projection) (p : Projection) :
  projections self = l ++ [p] ->
  (wacc <= g)%Q ->
  snd (calculate_terminal_value g wacc self) = self /\
  ~ raises_ValueError (fst (calculate_terminal_value g wacc self)) /\
  ((wacc == g)%Q ->
   fst (calculate_terminal_value g wacc self) = inl Py.ZeroDivisionError) /\
  ((wacc < g)%Q ->
   fst (calculate_terminal_value g wacc self)
   = inr (FCF p * (1 + g) / (wacc - g))%Q /\
   (wacc - g < 0)%Q).
Proof.
  intros Hps _. rewrite (calculate_terminal_value_last g wacc self l p Hps).
  cbn [fst snd]. split; [reflexivity |]. split.
  - intros [msg Hmsg]. unfold Py.truediv in Hmsg.
    destruct (Qeq_bool (wacc - g) 0); discriminate Hmsg.
  - split.
    + intros Heq. rewrite truediv_zero; [reflexivity |].
      rewrite Heq. ring.
    + intros Hlt. split.
      * rewrite truediv_nonzero; [reflexivity |].
        intros Hz. apply (Qlt_irrefl g).
        setoid_replace g with (wacc - (wacc - g))%Q at 1 by ring.
        rewrite Hz. setoid_replace (wacc - 0)%Q with wacc by ring. exact Hlt.
      * setoid_replace 0%Q with (g - g)%Q by ring.
        apply Qplus_lt_l. exact Hlt.
Qed.

Lemma calculate_terminal_value_low_discount_witness :
  let self := with_projections msft [mkProjection 1 1 0] in
  snd (calculate_terminal_value 1 0 self) = self /\
  ~ raises_ValueError (fst (calculate_terminal_value 1 0 self)) /\
  ((0 == 1)%Q ->
   fst (calculate_terminal_value 1 0 self) = inl Py.ZeroDivisionError) /\
  ((0 < 1)%Q ->
   fst (calculate_terminal_value 1 0 self)
   = inr (FCF (mkProjection 1 1 0) * (1 + 1) / (0 - 1))%Q /\
   (0 - 1 < 0)%Q).
Proof.
  apply (calculate_terminal_value_low_discount
           (with_projections msft [mkProjection 1 1 0]) (g := 1) (wacc := 0)
           [] (mkProjection 1 1 0)).
  - reflexivity.
  - discriminate.
Defined.

(** C3: on an object without stored projections [calculate_terminal_value]
    fails with the [ValueError] that asks to project first, but [calculate_pv]
    returns the empty list instead of failing; both leave the object as it
    is. *)
Theorem calculate_pv_before_projection (ar : Py.arithmetic) (self : DCFValuation)
  (g wacc discount_rate : Q) :
  let fresh := with_projections self [] in
  calculate_terminal_value g wacc fresh = (inl (Py.ValueError run_first_msg), fresh) /\
  calculate_pv ar discount_rate fresh = (inr [], fresh).
Proof. split; reflexivity. Qed.

(** ** [calculate_equity_value] *)

(** C8: with a positive number of shares, [calculate_equity_value] returns
    the enterprise value minus the net debt as equity value and that equity
    value divided by the shares as price per share, and leaves the object,
    projections included, unchanged. *)
Theorem calculate_equity_value_formula (self : DCFValuation)
  (enterprise_value net_debt shares_outstanding : Q) :
  (0 < shares_outstanding)%Q ->
  exists r,
    calculate_equity_value enterprise_value net_debt shares_outstanding self
    = (inr r, self) /\
    Equity_Value r = (enterprise_value - net_debt)%Q /\
    Price_Per_Share r = (Equity_Value r / shares_outstanding)%Q.
Proof.
  intros Hpos. unfold calculate_equity_value, bind, lift, ret.
  rewrite truediv_nonzero.
  - eexists. split; [reflexivity |]. split; reflexivity.
  - intros Hz. rewrite Hz in Hpos. exact (Qlt_irrefl _ Hpos).
Qed.

Lemma calculate_equity_value_formula_witness :
  exists r,
    calculate_equity_value 1000 200 8400 msft = (inr r, msft) /\
    Equity_Value r = (1000 - 200)%Q /\
    Price_Per_Share r = (Equity_Value r / 8400)%Q.
Proof.
  apply (calculate_equity_value_formula msft 1000 200 (shares_outstanding := 8400)).
  reflexivity.
Defined.

(** C5, as the specification states it: with a number of shares that is not
    positive the call would fail with a [ValueError].  The code has no such
    check: with [-2] shares it returns an equity value of 6 and a price per
    share of [6 / -2]. *)
Lemma calculate_equity_value_no_shares_check :
  (-2 <= 0)%Q /\
  fst (calculate_equity_value 10 4 (-2) msft)
  = inr (mkEquity (10 - 4) ((10 - 4) / -2))%Q /\
  ~ raises_ValueError (fst (calculate_equity_value 10 4 (-2) msft)).
Proof.
  split; [discriminate |]. split; [reflexivity |].
  intros [msg Hmsg]. discriminate Hmsg.
Qed.

(** C5, amended: with a number of shares that is not positive the object is
    unchanged and the call never fails with a [ValueError]: with zero shares
    it fails with [ZeroDivisionError], and with a negative number of shares
    it returns the equity value and the (sign-flipped) price per share of the
    formulas. *)
Theorem calculate_equity_value_nonpositive_shares (self : DCFValuation)
  (enterprise_value net_debt shares_outstanding : Q) :
  (shares_outstanding <= 0)%Q ->
  snd (calculate_equity_value enterprise_value net_debt shares_outstanding self) = self /\
  ~ raises_ValueError
      (fst (calculate_equity_value enterprise_value net_debt shares_outstanding self)) /\
  ((shares_outstanding == 0)%Q ->
   fst (calculate_equity_value enterprise_value net_debt shares_outstanding self)
   = inl Py.ZeroDivisionError) /\
  ((shares_outstanding < 0)%Q ->
   fst (calculate_equity_value enterprise_value net_debt shares_outstanding self)
   = inr (mkEquity (enterprise_value - net_debt)
                   ((enterprise_value - net_debt) / shares_outstanding))%Q).
Proof.
  intros _. unfold calculate_equity_value, bind, lift, ret.
  split; [| split; [| split]].
  - destruct (Py.truediv _ _); reflexivity.
  - intros [msg Hmsg]. unfold Py.truediv in Hmsg.
    destruct (Qeq_bool shares_outstanding 0); discriminate Hmsg.
  - intros Hz. rewrite (truediv_zero _ Hz). reflexivity.
  - intros Hneg. rewrite truediv_nonzero; [reflexivity |].
    intros Hz. rewrite Hz in Hneg. exact (Qlt_irrefl _ Hneg).
Qed.

Lemma calculate_equity_value_nonpositive_shares_witness :
  snd (calculate_equity_value 10 4 0 msft) = msft /\
  ~ raises_ValueError (fst (calculate_equity_value 10 4 0 msft)) /\
  ((0 == 0)%Q ->
   fst (calculate_equity_value 10 4 0 msft) = inl Py.ZeroDivisionError) /\
  ((0 < 0)%Q ->
   fst (calculate_equity_value 10 4 0 msft)
   = inr (mkEquity (10 - 4) ((10 - 4) / 0))%Q).
Proof.
  apply (calculate_equity_value_nonpositive_shares msft 10 4 (shares_outstanding := 0)).
  discriminate.
Defined.

(** ** [calculate_enterprise_value] *)

Lemma calculate_enterprise_value_wrong_length (ar : Py.arithmetic)
  (self : DCFValuation) (growth_rates : list Q) (g wacc : Q) :
  Py.len growth_rates <> fcf_growth_years self ->
  calculate_enterprise_value ar growth_rates g wacc self
  = (inl (Py.ValueError (provide_msg (fcf_growth_years self))), self).
Proof.
  intros Hlen. unfold calculate_enterprise_value. unfold bind at 1.
  rewrite (project_fcf_wrong_length _ _ Hlen). reflexivity.
Qed.

(** The steps after the projection only read the object. *)
Lemma calculate_enterprise_value_state (ar : Py.arithmetic)
  (self : DCFValuation) (growth_rates : list Q) (g wacc : Q) :
  Py.len growth_rates = fcf_growth_years self ->
  snd (calculate_enterprise_value ar growth_rates g wacc self)
  = with_projections self (chain (fcf_base self) 0 growth_rates).
Proof.
  intros Hlen. unfold calculate_enterprise_value. unfold bind at 1.
  rewrite (project_fcf_ok _ _ Hlen).
  set (s := with_projections self _).
  unfold bind at 1. unfold calculate_pv, bind at 1, get_self at 1, lift at 1.
  destruct (calculate_pv_loop ar wacc (projections s) []) as [e | pvs];
    [reflexivity |].
  unfold bind at 1.
  pose proof (calculate_terminal_value_state g wacc s) as Hs.
  destruct (calculate_terminal_value g wacc s) as [[e | tv] s']; cbn [snd] in Hs;
    subst s'; [reflexivity |].
  unfold bind, get_self, lift, ret.
  destruct (Py.pow _ _) as [e | d]; [reflexivity |].
  destruct (Py.truediv _ _); reflexivity.
Qed.

(** The outcome does not depend on the projections stored before the call. *)
Lemma calculate_enterprise_value_overwrites (ar : Py.arithmetic)
  (self : DCFValuation) (ps : list Projection) (growth_rates : list Q) (g wacc : Q) :
  Py.len growth_rates = fcf_growth_years self ->
  calculate_enterprise_value ar growth_rates g wacc (with_projections self ps)
  = calculate_enterprise_value ar growth_rates g wacc self.
Proof.
  intros Hlen. unfold calculate_enterprise_value. unfold bind at 1.
  rewrite project_fcf_ok by exact Hlen.
  symmetry. unfold bind at 1. rewrite project_fcf_ok by exact Hlen.
  reflexivity.
Qed.

Lemma calculate_enterprise_value_ok (ar : Py.arithmetic) (self : DCFValuation)
  (growth_rates : list Q) (g wacc : Q) (factor : Z -> Q) (n : nat) :
  List.length growth_rates = S n ->
  Py.len growth_rates = fcf_growth_years self ->
  (g < wacc)%Q ->
  discount_factors ar wacc (fcf_growth_years self) factor ->
  let base := fcf_base self in
  let entries := map (spec_entry base growth_rates) (seq 1 (S n)) in
  let pv_fcf_sum := Py.sum (map (pv_of factor) entries) in
  let terminal_value := (spec_fcf base growth_rates (S n) * (1 + g) / (wacc - g))%Q in
  let pv_terminal_value :=
    (terminal_value / factor (fcf_growth_years self))%Q in
  calculate_enterprise_value ar growth_rates g wacc self
  = (inr (mkEV pv_fcf_sum terminal_value pv_terminal_value
               (pv_fcf_sum + pv_terminal_value)%Q),
     with_projections self entries).
Proof.
  intros Hn Hlen Hlt Hf. cbv zeta.
  assert (HN : fcf_growth_years self = Z.of_nat (S n)).
  { rewrite <- Hlen. unfold Py.len. rewrite Hn. reflexivity. }
  unfold calculate_enterprise_value. unfold bind at 1.
  rewrite (project_fcf_ok _ _ Hlen), chain_is_spec, Hn.
  set (entries := map _ (seq 1 (S n))).
  set (s := with_projections self entries).
  unfold bind at 1. unfold calculate_pv, bind at 1, get_self at 1, lift at 1.
  change (projections s) with entries.
  rewrite (calculate_pv_loop_ok ar wacc factor entries).
  2:{ intros p Hp. unfold entries in Hp. apply in_map_iff in Hp.
      destruct Hp as [y [<- Hy]]. apply in_seq in Hy. cbn [Year spec_entry].
      apply Hf. lia. }
  cbn [app]. unfold bind at 1.
  assert (Hlast : projections s
                  = map (spec_entry (fcf_base self) growth_rates) (seq 1 n)
                    ++ [spec_entry (fcf_base self) growth_rates (S n)]).
  { change (projections s) with entries. unfold entries.
    rewrite seq_S, map_app. reflexivity. }
  rewrite (calculate_terminal_value_last g wacc s _ _ Hlast).
  rewrite truediv_nonzero by (apply Qminus_nonzero; exact Hlt).
  unfold bind at 1. unfold get_self at 1.
  unfold bind at 1. unfold lift at 1.
  change (fcf_growth_years s) with (fcf_growth_years self).
  destruct (Hf (fcf_growth_years self)) as [Hpow Hnz]; [lia |].
  rewrite Hpow.
  unfold bind at 1. unfold lift at 1.
  rewrite (truediv_nonzero _ Hnz).
  reflexivity.
Qed.

(** C4, as the specification states it: every input set with as many growth
    rates as projection years and a discount rate above the terminal growth
    rate would yield a result.  At a discount rate of [-1] (terminal growth
    [-2]) the discount factor is zero and the call fails with
    [ZeroDivisionError], already in exact arithmetic. *)
Lemma calculate_enterprise_value_zero_discount_factor :
  let self := init "X" 1 1 in
  Py.len [0%Q] = fcf_growth_years self /\
  (-2 < -1)%Q /\
  fst (calculate_enterprise_value Py.exact [0%Q] (-2) (-1) self)
  = inl Py.ZeroDivisionError.
Proof. cbv zeta. split; [reflexivity |]. split; reflexivity. Qed.

(** C4, amended: with as many growth rates as projection years, at least one
    projection year, a discount rate above the terminal growth rate, and
    every discount factor [(1 + discountRate) ** y] of the years
    [y = 1..N] computed (no [OverflowError]) and not zero (which rules out a
    discount rate of [-1] and a power that underflows to zero),
    [calculate_enterprise_value] returns a result whose present value of
    projected FCFs is the sum over the years [y = 1..N] of
    [fcf_y / (1 + discountRate)^y], whose terminal value is
    [fcf_N * (1 + g) / (discountRate - g)], whose present value of the
    terminal value is the terminal value divided by [(1 + discountRate)^N],
    and whose enterprise value is the sum of the two present values.  The
    powers are the numbers [**] gave, whatever the arithmetic. *)
Theorem calculate_enterprise_value_formulas (ar : Py.arithmetic)
  (self : DCFValuation) (growth_rates : list Q) (g wacc : Q) (factor : Z -> Q) :
  Py.len growth_rates = fcf_growth_years self ->
  (0 < fcf_growth_years self)%Z ->
  (g < wacc)%Q ->
  discount_factors ar wacc (fcf_growth_years self) factor ->
  exists r,
    fst (calculate_enterprise_value ar growth_rates g wacc self) = inr r /\
    PV_of_Projected_FCFs r
    = sum_years (spec_pv (fcf_base self) growth_rates factor)
        (List.length growth_rates) /\
    Terminal_Value r
    = (spec_fcf (fcf_base self) growth_rates (List.length growth_rates)
       * (1 + g) / (wacc - g))%Q /\
    PV_of_Terminal_Value r
    = (Terminal_Value r / factor (fcf_growth_years self))%Q /\
    Enterprise_Value r = (PV_of_Projected_FCFs r + PV_of_Terminal_Value r)%Q.
Proof.
  intros Hlen Hpos Hlt Hf.
  destruct (List.length growth_rates) as [| n] eqn:Hn.
  { unfold Py.len in Hlen. rewrite Hn in Hlen. cbn in Hlen. lia. }
  rewrite (calculate_enterprise_value_ok self growth_rates Hn Hlen Hlt Hf).
  eexists. split; [reflexivity |].
  cbn [PV_of_Projected_FCFs Terminal_Value PV_of_Terminal_Value Enterprise_Value].
  split; [| repeat split].
  rewrite map_map. apply sum_seq.
Qed.

Lemma calculate_enterprise_value_formulas_witness :
  exists r,
    fst (calculate_enterprise_value Py.exact fcf_growth_rates (25#1000) (7#100) msft)
    = inr r /\
    PV_of_Projected_FCFs r
    = sum_years (spec_pv (fcf_base msft) fcf_growth_rates (Qpower (1 + (7#100))))
        (List.length fcf_growth_rates) /\
    Terminal_Value r
    = (spec_fcf (fcf_base msft) fcf_growth_rates (List.length fcf_growth_rates)
       * (1 + (25#1000)) / ((7#100) - (25#1000)))%Q /\
    PV_of_Terminal_Value r
    = (Terminal_Value r / Qpower (1 + (7#100)) (fcf_growth_years msft))%Q /\
    Enterprise_Value r = (PV_of_Projected_FCFs r + PV_of_Terminal_Value r)%Q.
Proof.
  apply (@calculate_enterprise_value_formulas Py.exact msft fcf_growth_rates
           (25#1000) (7#100) (Qpower (1 + (7#100)))).
  - reflexivity.
  - reflexivity.
  - reflexivity.
  - intros y Hy. split; [reflexivity | apply Qpower_not_0; discriminate].
Defined.

(** C9: calling [calculate_enterprise_value] again with the same arguments
    on the object the first call left behind gives the same outcome, the
    same result or the same exception, and leaves the same object, whatever
    the arguments and whatever projections were stored at the start. *)
Theorem calculate_enterprise_value_twice (ar : Py.arithmetic)
  (self : DCFValuation) (growth_rates : list Q) (g wacc : Q) :
  let first := calculate_enterprise_value ar growth_rates g wacc self in
  let second := calculate_enterprise_value ar growth_rates g wacc (snd first) in
  fst second = fst first /\ snd second = snd first.
Proof.
  cbv zeta.
  destruct (Z.eq_dec (Py.len growth_rates) (fcf_growth_years self)) as [Hlen | Hlen].
  - rewrite (calculate_enterprise_value_state ar self growth_rates g wacc Hlen).
    rewrite (calculate_enterprise_value_overwrites ar self _ growth_rates g wacc Hlen).
    split; [reflexivity |].
    apply calculate_enterprise_value_state. exact Hlen.
  - rewrite (calculate_enterprise_value_wrong_length ar self growth_rates g wacc Hlen).
    cbn [snd].
    rewrite (calculate_enterprise_value_wrong_length ar self growth_rates g wacc Hlen).
    split; reflexivity.
Qed.

(** On the script's inputs both calls return the same valuation. *)
Example msft_twice :
  exists r,
    let first :=
      calculate_enterprise_value Py.exact fcf_growth_rates (25#1000) (7#100) msft in
    fst first = inr r /\
    fst (calculate_enterprise_value Py.exact fcf_growth_rates (25#1000) (7#100)
           (snd first))
    = inr r.
Proof. eexists. cbv zeta. split; vm_compute; reflexivity. Qed.

(** With no projection year and no growth rate the projection stores
    nothing, and the terminal value step then asks to project first. *)
Example no_projection_years :
  fst (calculate_enterprise_value Py.exact [] 0 1 (init "X" 1 0))
  = inl (Py.ValueError run_first_msg).
Proof. reflexivity. Qed.

(** In the float-like arithmetic a discount factor that leaves the range
    makes the valuation fail with [OverflowError], and one that underflows
    to zero makes it fail with [ZeroDivisionError]. *)
Example discount_factor_overflows :
  fst (calculate_enterprise_value Py.ranged [0; 0]%Q 0 (inject_Z (10 ^ 200))
         (init "X" 1 2))
  = inl Py.OverflowError.
Proof. vm_compute. reflexivity. Qed.

Example discount_factor_underflows :
  (0 < -1 + Qpower 2 (-53) - -2)%Q /\
  fst (calculate_enterprise_value Py.ranged (repeat 0%Q 21) (-2)
         (-1 + Qpower 2 (-53))%Q (init "X" 1 21))
  = inl Py.ZeroDivisionError.
Proof. split; vm_compute; reflexivity. Qed.

(** The second year compounds on the first year's FCF, not on the base. *)
Example second_year_compounds :
  map FCF (projections (snd (project_fcf [1; 1]%Q (init "X" 10 2))))
  = [10 * (1 + 1); 10 * (1 + 1) * (1 + 1)]%Q.
Proof. reflexivity. Qed.

(** ** More on [calculate_pv] *)

(** X1: when every discount factor [(1 + discount_rate) ** Year] of a
    stored projection is computed (no [OverflowError]) and is not zero,
    [calculate_pv] returns one present value per stored projection, in the
    stored order, each the entry's FCF divided by the discount factor of the
    entry's year, and leaves the object unchanged. *)
Theorem calculate_pv_values (ar : Py.arithmetic) (self : DCFValuation)
  (discount_rate : Q) (factor : Z -> Q) :
  (forall p, In p (projections self) ->
     Py.pow ar (1 + discount_rate)%Q (Year p) = inr (factor (Year p)) /\
     ~ (factor (Year p) == 0)%Q) ->
  calculate_pv ar discount_rate self
  = (inr (map (fun p => (FCF p / factor (Year p))%Q) (projections self)), self).
Proof.
  intros Hf. unfold calculate_pv, bind, get_self, lift.
  rewrite (calculate_pv_loop_ok ar discount_rate factor (projections self) Hf).
  reflexivity.
Qed.

Lemma calculate_pv_values_witness :
  let self := with_projections msft [mkProjection 1 110 (1#10); mkProjection 2 121 (1#10)] in
  calculate_pv Py.exact (1#10) self
  = (inr (map (fun p => (FCF p / Qpower (1 + (1#10)) (Year p))%Q) (projections self)),
     self).
Proof.
  apply (@calculate_pv_values Py.exact
           (with_projections msft [mkProjection 1 110 (1#10); mkProjection 2 121 (1#10)])
           (1#10) (Qpower (1 + (1#10)))).
  intros p _. split; [reflexivity | apply Qpower_not_0; discriminate].
Defined.

Lemma calculate_pv_loop_zero_factor (ar : Py.arithmetic) (discount_rate : Q)
  (ps : list Projection) :
  (1 + discount_rate == 0)%Q ->
  (exists p, In p ps /\ Year p <> 0%Z) ->
  forall pv_fcfs,
    calculate_pv_loop ar discount_rate ps pv_fcfs = inl Py.ZeroDivisionError.
Proof.
  intros Hd. induction ps as [| p rest IH]; intros [q [Hin Hq]] acc.
  - destruct Hin.
  - cbn [calculate_pv_loop]. rewrite (pow_zero_base ar (Year p) Hd).
    destruct (Z.ltb_spec (Year p) 0) as [Hneg | Hnn]; [reflexivity |].
    destruct (Z.eq_dec (Year p) 0) as [Hz | Hnz].
    + rewrite Hz. cbn [Qpower].
      rewrite truediv_nonzero by discriminate.
      apply IH. destruct Hin as [-> | Hin]; [contradiction |].
      exists q. split; assumption.
    + rewrite truediv_zero; [reflexivity |].
      rewrite Hd. apply Qpower_0. exact Hnz.
Qed.

(** X2: at a discount rate of [-1] the discount factor is zero, and
    [calculate_pv] fails with [ZeroDivisionError] as soon as some stored
    projection has a year other than 0 (as every entry has after
    [project_fcf]); the object is unchanged. *)
Theorem calculate_pv_zero_discount_factor (ar : Py.arithmetic)
  (self : DCFValuation) (discount_rate : Q) :
  (1 + discount_rate == 0)%Q ->
  (exists p, In p (projections self) /\ Year p <> 0%Z) ->
  calculate_pv ar discount_rate self = (inl Py.ZeroDivisionError, self).
Proof.
  intros Hd Hex. unfold calculate_pv, bind, get_self, lift.
  rewrite (calculate_pv_loop_zero_factor ar (projections self) Hd Hex). reflexivity.
Qed.

Lemma calculate_pv_zero_discount_factor_witness :
  let self := with_projections msft [mkProjection 0 5 0; mkProjection 1 110 (1#10)] in
  calculate_pv Py.exact (-1) self = (inl Py.ZeroDivisionError, self).
Proof.
  apply (@calculate_pv_zero_discount_factor Py.exact
           (with_projections msft [mkProjection 0 5 0; mkProjection 1 110 (1#10)])
           (-1)).
  - reflexivity.
  - exists (mkProjection 1 110 (1#10)). split; [right; left; reflexivity | discriminate].
Defined.

(** ** More on [project_fcf] *)

Lemma chain_nonnegative (rates : list Q) :
  forall (fcf : Q) (k : nat),
    (0 <= fcf)%Q ->
    Forall (fun g => (-1 < g)%Q) rates ->
    Forall (fun p => (0 <= FCF p)%Q) (chain fcf k rates).
Proof.
  induction rates as [| g rest IH]; intros fcf k Hpos Hrates; cbn [chain];
    constructor; inversion Hrates as [| g' rest' Hg Hrest]; subst.
  - cbn [FCF]. apply Qmult_le_0_compat; [exact Hpos | lra].
  - apply IH; [| exact Hrest]. apply Qmult_le_0_compat; [exact Hpos | lra].
Qed.

(** X5: a base FCF that is not negative never turns negative: when every
    growth rate is above [-1] (no year loses more than everything), no
    projected FCF is negative. *)
Theorem project_fcf_nonnegative (self : DCFValuation) (growth_rates : list Q) :
  Py.len growth_rates = fcf_growth_years self ->
  (0 <= fcf_base self)%Q ->
  Forall (fun g => (-1 < g)%Q) growth_rates ->
  Forall (fun p => (0 <= FCF p)%Q) (projections (snd (project_fcf growth_rates self))).
Proof.
  intros Hlen Hbase Hrates. rewrite (project_fcf_ok _ _ Hlen).
  cbn [snd with_projections projections].
  apply chain_nonnegative; assumption.
Qed.

Lemma project_fcf_nonnegative_witness :
  Forall (fun p => (0 <= FCF p)%Q) (projections (snd (project_fcf fcf_growth_rates msft))).
Proof.
  apply (@project_fcf_nonnegative msft fcf_growth_rates).
  - reflexivity.
  - discriminate.
  - repeat constructor.
Defined.

Lemma chain_grows (base : Q) (rates : list Q) :
  forall (fcf : Q) (k : nat),
    (0 <= base)%Q -> (base <= fcf)%Q ->
    Forall (fun g => (0 <= g)%Q) rates ->
    Forall (fun p => (base <= FCF p)%Q) (chain fcf k rates).
Proof.
  induction rates as [| g rest IH]; intros fcf k Hbase Hfcf Hrates; cbn [chain];
    constructor; inversion Hrates as [| g' rest' Hg Hrest]; subst.
  - cbn [FCF]. assert (0 <= fcf * g)%Q by (apply Qmult_le_0_compat; lra). lra.
  - apply IH; [exact Hbase | | exact Hrest].
    assert (0 <= fcf * g)%Q by (apply Qmult_le_0_compat; lra). lra.
Qed.

(** X6: with a base FCF that is not negative and growth rates that are not
    negative, no projected FCF falls below the base FCF. *)
Theorem project_fcf_not_below_base (self : DCFValuation) (growth_rates : list Q) :
  Py.len growth_rates = fcf_growth_years self ->
  (0 <= fcf_base self)%Q ->
  Forall (fun g => (0 <= g)%Q) growth_rates ->
  Forall (fun p => (fcf_base self <= FCF p)%Q)
         (projections (snd (project_fcf growth_rates self))).
Proof.
  intros Hlen Hbase Hrates. rewrite (project_fcf_ok _ _ Hlen).
  cbn [snd with_projections projections].
  apply chain_grows; [exact Hbase | apply Qle_refl | exact Hrates].
Qed.

Lemma project_fcf_not_below_base_witness :
  Forall (fun p => (fcf_base msft <= FCF p)%Q)
         (projections (snd (project_fcf fcf_growth_rates msft))).
Proof.
  apply (@project_fcf_not_below_base msft fcf_growth_rates).
  - reflexivity.
  - discriminate.
  - repeat constructor; discriminate.
Defined.

(** X7: a projection replaces the stored list instead of extending it: after
    any earlier call of [project_fcf], successful or not, a call with the
    right number of rates returns and stores what it would on the original
    object. *)
Theorem project_fcf_rerun (self : DCFValuation) (earlier growth_rates : list Q) :
  Py.len growth_rates = fcf_growth_years self ->
  project_fcf growth_rates (snd (project_fcf earlier self))
  = project_fcf growth_rates self.
Proof.
  intros Hlen.
  destruct (Z.eq_dec (Py.len earlier) (fcf_growth_years self)) as [He | He].
  - rewrite (project_fcf_ok earlier self He). cbn [snd].
    rewrite project_fcf_ok by exact Hlen.
    rewrite (project_fcf_ok growth_rates self Hlen). reflexivity.
  - rewrite (project_fcf_wrong_length earlier self He). reflexivity.
Qed.

Lemma project_fcf_rerun_witness :
  project_fcf fcf_growth_rates (snd (project_fcf [1; 2; 3; 4; 5]%Q msft))
  = project_fcf fcf_growth_rates msft.
Proof. apply (@project_fcf_rerun msft [1; 2; 3; 4; 5]%Q fcf_growth_rates). reflexivity. Defined.

(** X8: the constructor accepts a negative number of projection years, and
    on such an object [project_fcf] rejects every list of growth rates with
    its [ValueError], leaving the object unchanged. *)
Theorem project_fcf_negative_years (self : DCFValuation) (growth_rates : list Q) :
  (fcf_growth_years self < 0)%Z ->
  project_fcf growth_rates self
  = (inl (Py.ValueError (provide_msg (fcf_growth_years self))), self).
Proof.
  intros Hneg. apply project_fcf_wrong_length. unfold Py.len. lia.
Qed.

Lemma project_fcf_negative_years_witness :
  project_fcf [] (init "X" 1 (-3))
  = (inl (Py.ValueError (provide_msg (-3))), init "X" 1 (-3)).
Proof. apply (@project_fcf_negative_years (init "X" 1 (-3)) []). reflexivity. Defined.

(** ** More on [calculate_terminal_value] *)

(** X9: the ways [calculate_terminal_value] can fail: with the [ValueError]
    that asks to project first exactly when no projection is stored, with
    [ZeroDivisionError] exactly when projections are stored and the two rates
    are equal, and never with [IndexError] (the emptiness test makes the
    access to the last entry safe). *)
Theorem calculate_terminal_value_failures (self : DCFValuation) (g wacc : Q) :
  (fst (calculate_terminal_value g wacc self) = inl (Py.ValueError run_first_msg)
   <-> projections self = []) /\
  (fst (calculate_terminal_value g wacc self) = inl Py.ZeroDivisionError
   <-> projections self <> [] /\ (wacc == g)%Q) /\
  fst (calculate_terminal_value g wacc self) <> inl Py.IndexError.
Proof.
  destruct (projections self) as [| p0 rest] eqn:Hps.
  - assert (Hrun : calculate_terminal_value g wacc self
                   = (inl (Py.ValueError run_first_msg), self)).
    { unfold calculate_terminal_value, bind, get_self. rewrite Hps. reflexivity. }
    rewrite Hrun. cbn [fst]. split; [| split].
    + split; reflexivity.
    + split; [discriminate | intros [Hne _]; contradiction].
    + discriminate.
  - destruct (@exists_last _ (p0 :: rest)) as [l [p Hl]]; [discriminate |].
    rewrite (calculate_terminal_value_last g wacc self l p) by congruence.
    cbn [fst]. unfold Py.truediv.
    destruct (Qeq_bool (wacc - g) 0) eqn:E.
    + apply Qeq_bool_iff in E. split; [| split].
      * split; discriminate.
      * split; [intros _; split; [discriminate | lra] | reflexivity].
      * discriminate.
    + apply Qeq_bool_neq in E. split; [| split].
      * split; discriminate.
      * split; [discriminate | intros [_ Heq]; exfalso; apply E; lra].
      * discriminate.
Qed.

(** X10: with a last FCF that is not negative, a terminal growth rate above
    [-1] and a discount rate above the terminal growth rate,
    [calculate_terminal_value] returns, the terminal value is not negative,
    and the object is unchanged. *)
Theorem calculate_terminal_value_nonnegative (self : DCFValuation) (g wacc : Q)
  (l : list Projection) (p : Projection) :
  projections self = l ++ [p] ->
  (0 <= FCF p)%Q ->
  (-1 < g)%Q ->
  (g < wacc)%Q ->
  exists terminal_value,
    calculate_terminal_value g wacc self = (inr terminal_value, self) /\
    (0 <= terminal_value)%Q.
Proof.
  intros Hps Hfcf Hg Hlt.
  rewrite (calculate_terminal_value_last g wacc self l p Hps).
  rewrite truediv_nonzero by (apply Qminus_nonzero; exact Hlt).
  eexists. split; [reflexivity |].
  unfold Qdiv. apply Qmult_le_0_compat.
  - apply Qmult_le_0_compat; [exact Hfcf | lra].
  - apply Qinv_le_0_compat. lra.
Qed.

Lemma calculate_terminal_value_nonnegative_witness :
  let self := with_projections msft [mkProjection 1 100 0; mkProjection 2 110 (1#10)] in
  exists terminal_value,
    calculate_terminal_value (25#1000) (7#100) self = (inr terminal_value, self) /\
    (0 <= terminal_value)%Q.
Proof.
  apply (@calculate_terminal_value_nonnegative
           (with_projections msft [mkProjection 1 100 0; mkProjection 2 110 (1#10)])
           (25#1000) (7#100) [mkProjection 1 100 0] (mkProjection 2 110 (1#10))).
  - reflexivity.
  - discriminate.
  - reflexivity.
  - reflexivity.
Defined.

(** ** More on [calculate_enterprise_value] *)

(** X12: [calculate_enterprise_value] changes the object exactly as its
    call of [project_fcf] does, whether it returns or fails: the later steps
    only read the object. *)
Theorem calculate_enterprise_value_effect (ar : Py.arithmetic)
  (self : DCFValuation) (growth_rates : list Q) (g wacc : Q) :
  snd (calculate_enterprise_value ar growth_rates g wacc self)
  = snd (project_fcf growth_rates self).
Proof.
  destruct (Z.eq_dec (Py.len growth_rates) (fcf_growth_years self)) as [Hlen | Hlen].
  - rewrite (calculate_enterprise_value_state ar self growth_rates g wacc Hlen).
    rewrite (project_fcf_ok growth_rates self Hlen). reflexivity.
  - rewrite (calculate_enterprise_value_wrong_length ar self growth_rates g wacc Hlen).
    rewrite (project_fcf_wrong_length growth_rates self Hlen). reflexivity.
Qed.

(** X13: a wrong number of growth rates makes the whole enterprise valuation
    fail with the [ValueError] of [project_fcf], before anything is computed
    or stored. *)
Theorem calculate_enterprise_value_rejects_wrong_length (ar : Py.arithmetic)
  (self : DCFValuation) (growth_rates : list Q) (g wacc : Q) :
  Py.len growth_rates <> fcf_growth_years self ->
  calculate_enterprise_value ar growth_rates g wacc self
  = (inl (Py.ValueError (provide_msg (fcf_growth_years self))), self).
Proof. apply calculate_enterprise_value_wrong_length. Qed.

Lemma calculate_enterprise_value_rejects_wrong_length_witness :
  calculate_enterprise_value Py.exact [1; 2]%Q (25#1000) (7#100) msft
  = (inl (Py.ValueError (provide_msg 5)), msft).
Proof.
  apply (@calculate_enterprise_value_rejects_wrong_length Py.exact msft [1; 2]%Q
           (25#1000) (7#100)).
  vm_compute. discriminate.
Defined.

(** X14: on an object with zero projection years the empty list of growth
    rates is accepted, nothing is projected, and the enterprise valuation
    then fails with the [ValueError] that asks to project first, whatever
    the rates. *)
Theorem calculate_enterprise_value_zero_years (ar : Py.arithmetic)
  (self : DCFValuation) (g wacc : Q) :
  fcf_growth_years self = 0%Z ->
  calculate_enterprise_value ar [] g wacc self
  = (inl (Py.ValueError run_first_msg), with_projections self []).
Proof.
  intros Hz. unfold calculate_enterprise_value. unfold bind at 1.
  rewrite (project_fcf_ok [] self) by (symmetry; exact Hz).
  reflexivity.
Qed.

Lemma calculate_enterprise_value_zero_years_witness :
  calculate_enterprise_value Py.exact [] (25#1000) (7#100) (init "X" 1 0)
  = (inl (Py.ValueError run_first_msg), with_projections (init "X" 1 0) []).
Proof.
  apply (@calculate_enterprise_value_zero_years Py.exact (init "X" 1 0)
           (25#1000) (7#100)).
  reflexivity.
Defined.

Lemma chain_nonempty (self : DCFValuation) (growth_rates : list Q) :
  Py.len growth_rates = fcf_growth_years self ->
  (0 < fcf_growth_years self)%Z ->
  chain (fcf_base self) 0 growth_rates <> [].
Proof.
  intros Hlen Hpos Hnil. apply (f_equal (@List.length _)) in Hnil.
  rewrite chain_length in Hnil. unfold Py.len in Hlen. cbn in Hnil. lia.
Qed.

(** With equal rates the terminal value step divides by zero, if the
    present values were computed at all. *)
Lemma calculate_enterprise_value_equal_rates (ar : Py.arithmetic)
  (self : DCFValuation) (growth_rates : list Q) (g wacc : Q) :
  Py.len growth_rates = fcf_growth_years self ->
  (0 < fcf_growth_years self)%Z ->
  (wacc == g)%Q ->
  calculate_enterprise_value ar growth_rates g wacc self
  = (match calculate_pv_loop ar wacc (chain (fcf_base self) 0 growth_rates) [] with
     | inl e => inl e
     | inr _ => inl Py.ZeroDivisionError
     end,
     with_projections self (chain (fcf_base self) 0 growth_rates)).
Proof.
  intros Hlen Hpos Heq.
  pose proof (chain_nonempty self growth_rates Hlen Hpos) as Hne.
  unfold calculate_enterprise_value. unfold bind at 1.
  rewrite (project_fcf_ok _ _ Hlen).
  set (entries := chain (fcf_base self) 0 growth_rates) in *.
  set (s := with_projections self entries).
  unfold bind at 1. unfold calculate_pv, bind at 1, get_self at 1, lift at 1.
  change (projections s) with entries.
  destruct (calculate_pv_loop ar wacc entries []) as [e | pvs]; [reflexivity |].
  unfold bind at 1.
  destruct (exists_last Hne) as [l [p Hl]].
  rewrite (calculate_terminal_value_last g wacc s l p Hl).
  rewrite truediv_zero by lra. reflexivity.
Qed.

(** X15: with a discount rate equal to the terminal growth rate the
    enterprise valuation never returns, and its failure is not rolled back:
    with the right number of growth rates (at least one) it fails with
    [ZeroDivisionError] or [OverflowError], and the object keeps the
    projections just computed.  When every discount factor is computed and
    is not zero, the failure is the [ZeroDivisionError] of the terminal
    value. *)
Theorem calculate_enterprise_value_fails_after_projecting (ar : Py.arithmetic)
  (self : DCFValuation) (growth_rates : list Q) (g wacc : Q) :
  Py.len growth_rates = fcf_growth_years self ->
  (0 < fcf_growth_years self)%Z ->
  (wacc == g)%Q ->
  exists entries,
    project_fcf growth_rates self = (inr entries, with_projections self entries) /\
    entries <> [] /\
    snd (calculate_enterprise_value ar growth_rates g wacc self)
    = with_projections self entries /\
    (fst (calculate_enterprise_value ar growth_rates g wacc self)
     = inl Py.ZeroDivisionError \/
     fst (calculate_enterprise_value ar growth_rates g wacc self)
     = inl Py.OverflowError) /\
    ((exists factor, discount_factors ar wacc (fcf_growth_years self) factor) ->
     fst (calculate_enterprise_value ar growth_rates g wacc self)
     = inl Py.ZeroDivisionError).
Proof.
  intros Hlen Hpos Heq.
  exists (chain (fcf_base self) 0 growth_rates).
  split; [apply project_fcf_ok; exact Hlen |].
  split; [apply chain_nonempty; assumption |].
  rewrite (calculate_enterprise_value_equal_rates ar self growth_rates Hlen Hpos Heq).
  cbn [fst snd]. split; [reflexivity |]. split.
  - destruct (calculate_pv_loop ar wacc _ []) as [e | pvs] eqn:Hloop.
    + destruct (calculate_pv_loop_errors _ _ _ _ Hloop) as [-> | ->];
        [left | right]; reflexivity.
    + left. reflexivity.
  - intros [factor Hf].
    rewrite (calculate_pv_loop_ok ar wacc factor); [reflexivity |].
    intros p Hp. apply Hf.
    assert (Hy : In (Year p) (map Year (chain (fcf_base self) 0 growth_rates)))
      by (apply in_map; exact Hp).
    rewrite chain_years in Hy. apply in_map_iff in Hy.
    destruct Hy as [i [<- Hi]]. apply in_seq in Hi.
    rewrite <- Hlen. unfold Py.len. lia.
Qed.

Lemma calculate_enterprise_value_fails_after_projecting_witness :
  exists entries,
    project_fcf fcf_growth_rates msft = (inr entries, with_projections msft entries) /\
    entries <> [] /\
    snd (calculate_enterprise_value Py.exact fcf_growth_rates (7#100) (7#100) msft)
    = with_projections msft entries /\
    (fst (calculate_enterprise_value Py.exact fcf_growth_rates (7#100) (7#100) msft)
     = inl Py.ZeroDivisionError \/
     fst (calculate_enterprise_value Py.exact fcf_growth_rates (7#100) (7#100) msft)
     = inl Py.OverflowError) /\
    ((exists factor, discount_factors Py.exact (7#100) (fcf_growth_years msft) factor) ->
     fst (calculate_enterprise_value Py.exact fcf_growth_rates (7#100) (7#100) msft)
     = inl Py.ZeroDivisionError).
Proof.
  apply (@calculate_enterprise_value_fails_after_projecting Py.exact
           msft fcf_growth_rates (7#100) (7#100)).
  - reflexivity.
  - reflexivity.
  - reflexivity.
Defined.

(** ** [run_valuation] *)

Lemma io_bind_print_out {B : Type} (x : printed) (k : unit -> IO B)
  (self : DCFValuation) (out : stdout) :
  io_bind (print_out x) k (self, out) = k tt (self, out ++ [x]).
Proof. reflexivity. Qed.

Lemma io_bind_call_self {B : Type} (k : DCFValuation -> IO B)
  (self : DCFValuation) (out : stdout) :
  io_bind (call get_self) k (self, out) = k self (self, out).
Proof. reflexivity. Qed.

Lemma io_bind_call {A B : Type} (m : M A) (k : A -> IO B)
  (self : DCFValuation) (out : stdout) :
  io_bind (call m) k (self, out)
  = match m self with
    | (inl e, self') => (inl e, (self', out))
    | (inr a, self') => k a (self', out)
    end.
Proof.
  unfold io_bind, call. cbn [fst snd].
  destruct (m self) as [[e | a] self']; reflexivity.
Qed.

Lemma calculate_equity_value_unfold (self : DCFValuation)
  (enterprise_value net_debt shares_outstanding : Q) :
  calculate_equity_value enterprise_value net_debt shares_outstanding self
  = (match Py.truediv (enterprise_value - net_debt)%Q shares_outstanding with
     | inl e => inl e
     | inr price => inr (mkEquity (enterprise_value - net_debt)%Q price)
     end, self).
Proof.
  unfold calculate_equity_value, bind, lift, ret.
  destruct (Py.truediv _ _); reflexivity.
Qed.

(** One statement of [run_valuation] at a time. *)
Ltac io_step :=
  first [ rewrite io_bind_print_out
        | rewrite io_bind_call_self
        | rewrite io_bind_call ];
  cbv beta.

(** X18: when the enterprise valuation returns and the number of shares is
    not zero, [run_valuation] returns the enterprise value of that
    valuation, that value minus the net debt as equity value and the equity
    value divided by the shares as price per share, and leaves the object as
    the enterprise valuation left it. *)
Theorem run_valuation_returns (ar : Py.arithmetic) (self self' : DCFValuation) (out : stdout)
  (fcf_growth : list Q) (terminal_growth wacc net_debt shares : Q) (ev : EVResult) :
  calculate_enterprise_value ar fcf_growth terminal_growth wacc self = (inr ev, self') ->
  ~ (shares == 0)%Q ->
  exists r,
    fst (run_valuation ar fcf_growth terminal_growth wacc net_debt shares (self, out))
    = inr r /\
    fst (snd (run_valuation ar fcf_growth terminal_growth wacc net_debt shares (self, out)))
    = self' /\
    enterprise_value r = Enterprise_Value ev /\
    equity_value r = (Enterprise_Value ev - net_debt)%Q /\
    price_per_share r = ((Enterprise_Value ev - net_debt) / shares)%Q.
Proof.
  intros Hev Hs. unfold run_valuation.
  do 5 io_step. rewrite Hev. io_step.
  rewrite calculate_equity_value_unfold, (truediv_nonzero _ Hs).
  repeat io_step. unfold io_ret. cbn [fst snd].
  eexists. split; [reflexivity |]. repeat split.
Qed.

Lemma run_valuation_returns_witness :
  exists ev self',
    calculate_enterprise_value Py.exact [1#10] 0 (1#10) (init "X" 100 1) = (inr ev, self') /\
    exists r,
      fst (run_valuation Py.exact [1#10] 0 (1#10) 20 4 (init "X" 100 1, [])) = inr r /\
      fst (snd (run_valuation Py.exact [1#10] 0 (1#10) 20 4 (init "X" 100 1, []))) = self' /\
      enterprise_value r = Enterprise_Value ev /\
      equity_value r = (Enterprise_Value ev - 20)%Q /\
      price_per_share r = ((Enterprise_Value ev - 20) / 4)%Q.
Proof.
  do 2 eexists.
  refine ((fun H => conj H
             (@run_valuation_returns Py.exact (init "X" 100 1) _ [] [1#10] 0 (1#10) 20 4 _ H _))
            eq_refl).
  discriminate.
Defined.

(** X19: the report shows what is returned and stored: on a successful run
    the output is the earlier output, the banner and then a report that has
    the line of the enterprise value, the line of the equity value and the
    line of the price per share with the returned numbers, and the table of
    the projections the object now stores. *)
Theorem run_valuation_report (ar : Py.arithmetic) (self self' : DCFValuation) (out : stdout)
  (fcf_growth : list Q) (terminal_growth wacc net_debt shares : Q) (ev : EVResult) :
  calculate_enterprise_value ar fcf_growth terminal_growth wacc self = (inr ev, self') ->
  ~ (shares == 0)%Q ->
  exists r report,
    run_valuation ar fcf_growth terminal_growth wacc net_debt shares (self, out)
    = (inr r, (self', out ++ banner (company_name self) ++ report)) /\
    In (Line [Text "  Enterprise Value ................. $";
              Fmt_comma_1f (enterprise_value r); Text "M"]) report /\
    In (Line [Text "  Equity Value ...................... $";
              Fmt_comma_1f (equity_value r); Text "M"]) report /\
    In (Line [Text "  INTRINSIC VALUE PER SHARE ........ $";
              Fmt_2f (price_per_share r)]) report /\
    In (Frame (df_projections (projections self'))) report.
Proof.
  intros Hev Hs. unfold run_valuation.
  do 5 io_step. rewrite Hev. io_step.
  rewrite calculate_equity_value_unfold, (truediv_nonzero _ Hs).
  repeat io_step. unfold banner, io_ret.
  repeat rewrite <- app_assoc. cbn [app].
  do 2 eexists. split; [reflexivity |].
  cbn [enterprise_value equity_value price_per_share Equity_Value Price_Per_Share].
  repeat split; cbn [In]; repeat (first [left; reflexivity | right]).
Qed.

Lemma run_valuation_report_witness :
  exists ev self',
    calculate_enterprise_value Py.exact [1#10] 0 (1#10) (init "X" 100 1) = (inr ev, self') /\
    exists r report,
      run_valuation Py.exact [1#10] 0 (1#10) 20 4 (init "X" 100 1, [])
      = (inr r, (self', [] ++ banner (company_name (init "X" 100 1)) ++ report)) /\
      In (Line [Text "  Enterprise Value ................. $";
                Fmt_comma_1f (enterprise_value r); Text "M"]) report /\
      In (Line [Text "  Equity Value ...................... $";
                Fmt_comma_1f (equity_value r); Text "M"]) report /\
      In (Line [Text "  INTRINSIC VALUE PER SHARE ........ $";
                Fmt_2f (price_per_share r)]) report /\
      In (Frame (df_projections (projections self'))) report.
Proof.
  do 2 eexists.
  refine ((fun H => conj H
             (@run_valuation_report Py.exact (init "X" 100 1) _ [] [1#10] 0 (1#10) 20 4 _ H _))
            eq_refl).
  discriminate.
Defined.

(** X20: an exception of the enterprise valuation comes out of
    [run_valuation] unchanged, with the object as the enterprise valuation
    left it, after the banner and nothing else has been printed. *)
Theorem run_valuation_propagates (ar : Py.arithmetic) (self self' : DCFValuation) (out : stdout)
  (fcf_growth : list Q) (terminal_growth wacc net_debt shares : Q) (e : Py.exn) :
  calculate_enterprise_value ar fcf_growth terminal_growth wacc self = (inl e, self') ->
  run_valuation ar fcf_growth terminal_growth wacc net_debt shares (self, out)
  = (inl e, (self', out ++ banner (company_name self))).
Proof.
  intros Hev. unfold run_valuation.
  do 5 io_step. rewrite Hev.
  unfold banner. repeat rewrite <- app_assoc. reflexivity.
Qed.

Lemma run_valuation_propagates_witness :
  run_valuation Py.exact [1; 2]%Q (25#1000) (7#100) 0 8400 (msft, [])
  = (inl (Py.ValueError "Provide 5 growth rates"),
     (msft, [] ++ banner (company_name msft))).
Proof.
  apply (@run_valuation_propagates Py.exact msft msft [] [1; 2]%Q (25#1000) (7#100) 0 8400).
  reflexivity.
Defined.

(** X21: the number of shares is only looked at after the enterprise
    valuation: with zero shares [run_valuation] fails with
    [ZeroDivisionError] once the enterprise valuation has returned, so the
    object already holds the new projections, and only the banner has been
    printed. *)
Theorem run_valuation_zero_shares (ar : Py.arithmetic) (self self' : DCFValuation) (out : stdout)
  (fcf_growth : list Q) (terminal_growth wacc net_debt shares : Q) (ev : EVResult) :
  calculate_enterprise_value ar fcf_growth terminal_growth wacc self = (inr ev, self') ->
  (shares == 0)%Q ->
  run_valuation ar fcf_growth terminal_growth wacc net_debt shares (self, out)
  = (inl Py.ZeroDivisionError, (self', out ++ banner (company_name self))).
Proof.
  intros Hev Hs. unfold run_valuation.
  do 5 io_step. rewrite Hev. io_step.
  rewrite calculate_equity_value_unfold, (truediv_zero _ Hs).
  unfold banner. repeat rewrite <- app_assoc. reflexivity.
Qed.

Lemma run_valuation_zero_shares_witness :
  exists ev self',
    calculate_enterprise_value Py.exact [1#10] 0 (1#10) (init "X" 100 1) = (inr ev, self') /\
    run_valuation Py.exact [1#10] 0 (1#10) 20 0 (init "X" 100 1, [])
    = (inl Py.ZeroDivisionError,
       (self', [] ++ banner (company_name (init "X" 100 1)))).
Proof.
  do 2 eexists.
  refine ((fun H => conj H
             (@run_valuation_zero_shares Py.exact (init "X" 100 1) _ [] [1#10] 0 (1#10) 20 0 _ H _))
            eq_refl).
  reflexivity.
Defined.
